(** * KOINOS catalog browser: the virtualized item list and the query/stats core

    The first part embeds [frontend/src/components/VirtualizedItemList.js]:
    the component is a pure function from its props to a React element tree,
    except that [item.price.toLocaleString()] raises a TypeError when the
    price is [undefined] or [null].  The tree is modelled as an inductive
    type, style objects as finite maps from property names to JavaScript
    values, and the possible exception with an error monad.

    The second part models the backend's Query Engine (specification 4.3)
    and Stats Cache (4.2), whose route files are described by the
    specification only. *)

From Stdlib Require Import ZArith QArith Qreduction Ascii String DecimalString.
From stdpp Require Import gmap strings list fin_maps.

#[local] Set Warnings "-register-all".

Open Scope Z_scope.

(** ** The host environment

    JavaScript numbers are IEEE doubles and their printing is the host's
    business ([Number.prototype.toLocaleString] depends on the locale of the
    browser).  The component never computes with them, so the number type and
    its two printers are an interface. *)

Class Host := {
  number : Type;
  number_of_Z : Z -> number;                 (* an integer literal such as 600 *)
  number_toString : number -> string;         (* ToString, used by [+] *)
  number_toLocaleString : number -> string    (* Number.prototype.toLocaleString *)
}.

(** ** JavaScript values and the error monad *)

Inductive value `{Host} : Type :=
  | JUndefined
  | JNull
  | JBool (b : bool)
  | JNum (n : number)
  | JStr (s : string).

Inductive exn := TypeError.

Inductive result (A : Type) : Type :=
  | Ok (a : A)
  | Throw (e : exn).
Arguments Ok {A} a.
Arguments Throw {A} e.

Definition bind {A B} (r : result A) (k : A -> result B) : result B :=
  match r with
  | Ok a => k a
  | Throw e => Throw e
  end.

Notation "x <- r ;; k" := (bind r (fun x => k))
  (at level 100, r at next level, right associativity).

Section Component.
Context `{Host}.

(** ToString of a primitive, as applied by ['/items/' + item.id]. *)
Definition ToString (v : value) : string :=
  match v with
  | JUndefined => "undefined"
  | JNull => "null"
  | JBool true => "true"
  | JBool false => "false"
  | JNum n => number_toString n
  | JStr s => s
  end.

(** [v.toLocaleString()]: property access on [undefined] or [null] throws;
    a number uses the locale printer, a string is returned as it is, a
    boolean inherits [Object.prototype.toLocaleString], which calls
    [toString]. *)
Definition toLocaleString (v : value) : result string :=
  match v with
  | JUndefined | JNull => Throw TypeError
  | JBool b => Ok (ToString (JBool b))
  | JNum n => Ok (number_toLocaleString n)
  | JStr s => Ok s
  end.

(** An element of the [items] array: an object read through its four
    fields; an absent field reads as [undefined]. *)
Record item := Item {
  id : value;
  name : value;
  category : value;
  price : value
}.

(** The two event handlers assign one style property of the event's
    current target. *)
Inductive handler :=
  | SetCurrentTargetStyle (prop : string) (v : string).

Definition run_handler (h : handler) (target_style : gmap string value)
  : gmap string value :=
  match h with
  | SetCurrentTargetStyle p v => <[p := JStr v]> target_style
  end.

(** The key of the element that JSX builds from [key={v}]: React stores
    the string form of [v], and no key at all when [v] is [undefined]. *)
Definition jsx_key (v : value) : option string :=
  match v with
  | JUndefined => None
  | _ => Some (ToString v)
  end.

(** React elements as the JSX of the component builds them. *)
Inductive element :=
  | Text (s : string)                      (* literal JSX text *)
  | Expr (v : value)                       (* a child written as an expression *)
  | Div (key : option string) (style : gmap string value)
        (children : list element)
  | Link (to : value) (style : gmap string value)
         (onMouseEnter onMouseLeave : handler) (children : list element).

Definition el_style (e : element) : gmap string value :=
  match e with
  | Div _ s _ | Link _ s _ _ _ => s
  | _ => ∅
  end.

Definition el_children (e : element) : list element :=
  match e with
  | Div _ _ c | Link _ _ _ _ c => c
  | _ => []
  end.

Definition el_key (e : element) : option string :=
  match e with
  | Div k _ _ => k
  | _ => None
  end.

(** [Array.prototype.map] with a callback that may throw: the callback is
    applied to each element and its index, left to right, and the first
    exception ends the traversal. *)
Fixpoint map_from {A B} (f : A -> nat -> result B) (index : nat) (l : list A)
  : result (list B) :=
  match l with
  | [] => Ok []
  | a :: l' =>
      b <- f a index ;;
      bs <- map_from f (S index) l' ;;
      Ok (b :: bs)
  end.

Definition array_map {A B} (f : A -> nat -> result B) (l : list A)
  : result (list B) := map_from f 0%nat l.

Record props := Props {
  items : list item;
  height : value      (* [JUndefined] when the prop is not passed *)
}.

(** A default parameter value replaces [undefined] only. *)
Definition default_param (v d : value) : value :=
  match v with
  | JUndefined => d
  | _ => v
  end.

Definition link_style : gmap string value :=
  <["display" := JStr "flex"]>
  (<["justifyContent" := JStr "space-between"]>
  (<["alignItems" := JStr "center"]>
  (<["padding" := JStr "16px"]>
  (<["textDecoration" := JStr "none"]>
  (<["color" := JStr "#333"]>
  (<["transition" := JStr "background-color 0.2s"]>
  (<["height" := JStr "100%"]>
  (<["boxSizing" := JStr "border-box"]> ∅)))))))).

(** The callback of [items.map]: one row. *)
Definition row (items_length : nat) (it : item) (index : nat)
  : result element :=
  localized <- toLocaleString (price it) ;;
  Ok (Div (jsx_key (id it))
        (<["height" := JStr "70px"]>
         (<["borderBottom" :=
              if Z.of_nat index <? Z.of_nat items_length - 1
              then JStr "1px solid #e0e0e0" else JStr "none"]> ∅))
        [Link (JStr ("/items/" +:+ ToString (id it)))
           link_style
           (SetCurrentTargetStyle "backgroundColor" "#f5f5f5")
           (SetCurrentTargetStyle "backgroundColor" "transparent")
           [Div None ∅
              [Div None (<["fontWeight" := JStr "500"]>
                         (<["marginBottom" := JStr "4px"]> ∅))
                 [Expr (name it)];
               Div None (<["fontSize" := JStr "14px"]>
                         (<["color" := JStr "#666"]> ∅))
                 [Expr (category it)]];
            Div None (<["fontWeight" := JStr "600"]>
                      (<["color" := JStr "#007bff"]> ∅))
              [Text "$"; Expr (JStr localized)]]]).

Definition VirtualizedItemList (p : props) : result element :=
  let height := default_param (height p) (JNum (number_of_Z 600)) in
  rows <- array_map (row (length (items p))) (items p) ;;
  Ok (Div None
        (<["backgroundColor" := JStr "white"]>
         (<["border" := JStr "1px solid #e0e0e0"]>
         (<["borderRadius" := JStr "4px"]>
         (<["maxHeight" := height]>
         (<["overflow" := JStr "auto"]> ∅)))))
        rows).

(** *** Observations on the rendered tree *)

(** The link of a row is its only child. *)
Definition row_link (r : element) : option element := el_children r !! 0%nat.

Definition link_to (e : element) : option value :=
  match e with
  | Link to _ _ _ _ => Some to
  | _ => None
  end.

(** What the three cells of a row hold: the children of the name cell, of
    the category cell and of the price cell. *)
Definition row_cells (r : element)
  : option (list element * list element * list element) :=
  link ← row_link r;
  info ← el_children link !! 0%nat;
  name_cell ← el_children info !! 0%nat;
  category_cell ← el_children info !! 1%nat;
  price_cell ← el_children link !! 1%nat;
  Some (el_children name_cell, el_children category_cell,
        el_children price_cell).

(** The inputs on which a method call on the price is possible. *)
Definition is_nullish (v : value) : bool :=
  match v with
  | JUndefined | JNull => true
  | _ => false
  end.

Definition is_number (v : value) : bool :=
  match v with
  | JNum _ => true
  | _ => false
  end.

Definition prices_callable (l : list item) : bool :=
  forallb (fun it => negb (is_nullish (price it))) l.

Definition prices_numeric (l : list item) : bool :=
  forallb (fun it => is_number (price it)) l.

End Component.

Section LinkObservations.
Context `{Host}.

(** The two handlers a link was given. *)
Definition link_onMouseEnter (e : element) : option handler :=
  match e with
  | Link _ _ enter _ _ => Some enter
  | _ => None
  end.

Definition link_onMouseLeave (e : element) : option handler :=
  match e with
  | Link _ _ _ leave _ => Some leave
  | _ => None
  end.

End LinkObservations.

(** ** A concrete host: integer-valued numbers in the en-US locale

    Integers print in decimal; the locale printer groups the digits by
    three with commas, as a browser set to en-US does for integers. *)

Definition digits_of_Z (z : Z) : string :=
  NilZero.string_of_int (Z.to_int z).

Fixpoint group3 (rev_digits : list ascii) (seen : nat) : list ascii :=
  match rev_digits with
  | [] => []
  | d :: rest =>
      match seen, rest with
      | 2%nat, _ :: _ => d :: ","%char :: group3 rest 0
      | _, _ => d :: group3 rest (S seen)
      end
  end.

Definition en_US_of_Z (z : Z) : string :=
  let body := string_of_list_ascii
                (rev (group3 (rev (list_ascii_of_string
                                     (digits_of_Z (Z.abs z)))) 0)) in
  if z <? 0 then "-" +:+ body else body.

Definition int_host : Host := {|
  number := Z;
  number_of_Z := fun z => z;
  number_toString := digits_of_Z;
  number_toLocaleString := en_US_of_Z
|}.

Definition jnum (z : Z) : @value int_host := @JNum int_host z.

(** ** The catalog's data model, as the backend holds it *)

Module Store.

(** Modelled from the spec: the Item record of the data model (section 3),
    as the backend's route files (routes/items.js and the stats route) hold
    it.  An id is a number, a price a rational. *)
Record Item := {
  id : Z;
  name : string;
  category : string;
  price : Q
}.

(** Modelled from the spec: the persisted file of the Item Store (4.1),
    reduced to what the Stats Cache observes: the collection it holds, its
    modification timestamp, and a probe counting the [list()] calls. *)
Record Storage := {
  contents : list Item;
  mtime : Z;
  reads : nat
}.

(** Modelled from the spec: [list()] reads the full collection (4.1); the
    probe counts the read. *)
Definition list_items (st : Storage) : list Item * Storage :=
  (contents st,
   {| contents := contents st; mtime := mtime st; reads := S (reads st) |}).

(** Modelled from the spec: a change of the file (an [append] writes the
    entire updated collection back, 4.1) installs new contents under a new
    modification timestamp. *)
Definition write (new_contents : list Item) (t : Z) (st : Storage) : Storage :=
  {| contents := new_contents; mtime := t; reads := reads st |}.

End Store.

(** ** Query Engine *)

Module QueryEngine.
Import Store.

Definition lower_char (c : ascii) : ascii :=
  let n := nat_of_ascii c in
  if ((65 <=? n) && (n <=? 90))%nat then ascii_of_nat (n + 32) else c.

Fixpoint toLowerCase (s : string) : string :=
  match s with
  | EmptyString => EmptyString
  | String c s' => String (lower_char c) (toLowerCase s')
  end.

Definition is_space (c : ascii) : bool :=
  let n := nat_of_ascii c in
  ((n =? 32) || ((9 <=? n) && (n <=? 13)))%nat.

Fixpoint trim_start (s : string) : string :=
  match s with
  | EmptyString => EmptyString
  | String c s' => if is_space c then trim_start s' else s
  end.

Fixpoint trim_end (s : string) : string :=
  match s with
  | EmptyString => EmptyString
  | String c s' =>
      match trim_end s' with
      | EmptyString => if is_space c then EmptyString else String c EmptyString
      | t => String c t
      end
  end.

Definition trim (s : string) : string := trim_end (trim_start s).

Fixpoint starts_with (p s : string) : bool :=
  match p, s with
  | EmptyString, _ => true
  | String a p', String b s' => if Ascii.eqb a b then starts_with p' s' else false
  | String _ _, EmptyString => false
  end.

(** Substring test: [includes needle hay] is [hay.includes(needle)]. *)
Fixpoint includes (needle hay : string) : bool :=
  starts_with needle hay ||
  match hay with
  | EmptyString => false
  | String _ hay' => includes needle hay'
  end.

(** Modelled from the spec: Query Parameters (section 3), with the request's
    optional fields; the defaults are those of 4.3. *)
Record QueryParameters := {
  search : option string;
  page : option Z;
  limit : option Z
}.

Definition page_of (q : QueryParameters) : Z := default 1 (page q).
Definition limit_of (q : QueryParameters) : Z := default 10 (limit q).

Record QueryResult := {
  r_items : list Item;
  r_total : Z;
  r_page : Z;
  r_limit : Z
}.

(** Modelled from the spec: case-insensitive substring match on the name or
    the category (4.3, Filtering). *)
Definition matches (text : string) (it : Item) : bool :=
  includes (toLowerCase text) (toLowerCase (name it)) ||
  includes (toLowerCase text) (toLowerCase (category it)).

(** Modelled from the spec: the filter applies only when the search text is
    present and non-empty after trimming (4.3, Filtering). *)
Definition apply_search (s : option string) (collection : list Item)
  : list Item :=
  match s with
  | Some text =>
      if String.eqb (trim text) "" then collection
      else List.filter (matches text) collection
  | None => collection
  end.

(** Modelled from the spec: [slice] of the filtered sequence starting at
    [(page - 1) * limit], of length [limit] (4.3, Pagination). *)
Definition slice (start len : Z) (l : list Item) : list Item :=
  take (Z.to_nat len) (drop (Z.to_nat start) l).

(** Modelled from the spec: the Query Engine, a pure function of the
    collection and the parameters (4.3). *)
Definition query (collection : list Item) (q : QueryParameters) : QueryResult :=
  let filtered := apply_search (search q) collection in
  {| r_items := slice ((page_of q - 1) * limit_of q) (limit_of q) filtered;
     r_total := Z.of_nat (length filtered);
     r_page := page_of q;
     r_limit := limit_of q |}.

End QueryEngine.

(** ** Stats Cache *)

Module StatsCache.
Import Store.

Record Stats := {
  count : Z;
  averagePrice : Q
}.

Definition sum_prices (l : list Item) : Q :=
  fold_right (fun it acc => Qplus (price it) acc) (0%Q) l.

(** Modelled from the spec: the aggregate over the collection; the average
    of no items is 0 (4.2). *)
Definition compute_stats (l : list Item) : Stats :=
  let n := Z.of_nat (length l) in
  {| count := n;
     averagePrice :=
       if n =? 0 then 0%Q else Qred (Qdiv (sum_prices l) (inject_Z n)) |}.

(** Modelled from the spec: the single cache entry (4.2): nothing, or a
    value with the timestamp observed when it was computed. *)
Inductive cache :=
  | NoEntry
  | Entry (value : Stats) (observedTimestamp : Z).

(** The three states of 4.2; Stale is an entry whose timestamp is no longer
    the file's. *)
Inductive phase := Empty | Valid | Stale.

Definition phase_of (c : cache) (st : Storage) : phase :=
  match c with
  | NoEntry => Empty
  | Entry _ t => if t =? mtime st then Valid else Stale
  end.

Definition recompute (t_now : Z) (st : Storage) : Stats * cache * Storage :=
  let '(collection, st') := list_items st in
  let v := compute_stats collection in
  (v, Entry v t_now, st').

(** Modelled from the spec: [getStats()] (4.2): read the current timestamp;
    a Valid entry is returned as it is; otherwise list, compute and cache. *)
Definition getStats (c : cache) (st : Storage) : Stats * cache * Storage :=
  let t_now := mtime st in
  match c with
  | Entry v t => if t =? t_now then (v, c, st) else recompute t_now st
  | NoEntry => recompute t_now st
  end.

(** The process and its file: requests for the stats and changes of the
    file, which advance its modification timestamp. *)
Inductive step : cache * Storage -> cache * Storage -> Prop :=
  | step_getStats c st :
      step (c, st) (snd (fst (getStats c st)), snd (getStats c st))
  | step_file_change c st new_contents t :
      mtime st < t ->
      step (c, st) (c, write new_contents t st).

Inductive reachable : cache * Storage -> Prop :=
  | reach_init collection t :
      reachable (NoEntry,
                 {| contents := collection; mtime := t; reads := 0 |})
  | reach_step s s' : reachable s -> step s s' -> reachable s'.

End StatsCache.

(** ** Sample inputs *)

Definition sample_items : list (@item int_host) :=
  [ Item (jnum 1) (JStr "Laptop Pro") (JStr "Electronics") (jnum 2499);
    Item (jnum 2) (JStr "Standing Desk") (JStr "Furniture") (jnum 1199) ].

Definition sample_props : @props int_host := Props sample_items JUndefined.

Definition priceless_items : list (@item int_host) :=
  [ Item (jnum 1) (JStr "Laptop Pro") (JStr "Electronics") (jnum 2499);
    Item (jnum 3) (JStr "Mystery Box") (JStr "Misc") JNull ].

Definition mixed_id_items : list (@item int_host) :=
  [ Item (jnum 1) (JStr "Laptop Pro") (JStr "Electronics") (jnum 2499);
    Item (JStr "1") (JStr "Standing Desk") (JStr "Furniture") (jnum 1199) ].

Definition quoted_price_items : list (@item int_host) :=
  [ Item (jnum 4) (JStr "Gift Card") (JStr "Vouchers") (JStr "25.00") ].

Definition catalog : list Store.Item :=
  [ {| Store.id := 1; Store.name := "power tool";
       Store.category := "Hardware"; Store.price := 10 |};
    {| Store.id := 2; Store.name := "Hammer";
       Store.category := "Tools"; Store.price := 20 |};
    {| Store.id := 3; Store.name := "Desk";
       Store.category := "Furniture"; Store.price := 30 |} ].

Definition page_two_of_two : QueryEngine.QueryParameters :=
  {| QueryEngine.search := None; QueryEngine.page := Some 2;
     QueryEngine.limit := Some 2 |}.

Definition fresh_store : Store.Storage :=
  {| Store.contents := catalog; Store.mtime := 100; Store.reads := 0 |}.

Definition warm_cache : StatsCache.cache :=
  snd (fst (StatsCache.getStats StatsCache.NoEntry fresh_store)).

Definition warm_store : Store.Storage :=
  snd (StatsCache.getStats StatsCache.NoEntry fresh_store).

(** * The integer host prints as a browser does *)

Example en_US_sample :
  en_US_of_Z 1234567 = "1,234,567" /\ en_US_of_Z (-1000) = "-1,000" /\
  en_US_of_Z 999 = "999" /\ digits_of_Z 42 = "42".
Proof. vm_compute. auto. Qed.

(** * The virtualized item list *)

Section ComponentFacts.
Context `{Host}.

Lemma map_from_length {A B} (f : A -> nat -> result B) l :
  forall i bs, map_from f i l = Ok bs -> length bs = length l.
Proof.
  induction l as [|a l IH]; intros i bs; simpl.
  - intros [= <-]. reflexivity.
  - destruct (f a i) as [b|e]; simpl; [|discriminate].
    destruct (map_from f (S i) l) as [bs'|e] eqn:E; simpl; [|discriminate].
    intros [= <-]. simpl. f_equal. eauto.
Qed.

Lemma map_from_lookup {A B} (f : A -> nat -> result B) l :
  forall i bs, map_from f i l = Ok bs ->
  forall k a, l !! k = Some a ->
  exists b, bs !! k = Some b /\ f a (i + k)%nat = Ok b.
Proof.
  induction l as [|a l IH]; intros i bs; simpl.
  - intros _ k a' Hk. destruct k; discriminate.
  - destruct (f a i) as [b|e] eqn:Ef; simpl; [|discriminate].
    destruct (map_from f (S i) l) as [bs'|e] eqn:E; simpl; [|discriminate].
    intros [= <-] k a' Hk. destruct k as [|k]; simpl in *.
    + injection Hk as <-. exists b. rewrite Nat.add_0_r. auto.
    + destruct (IH _ _ E _ _ Hk) as (b' & Hb & Hf).
      exists b'. split; [exact Hb|].
      replace (i + S k)%nat with (S i + k)%nat by lia. exact Hf.
Qed.

Lemma map_from_Forall2 {A B} (f : A -> nat -> result B) l :
  forall i bs, map_from f i l = Ok bs ->
  Forall2 (fun a b => exists k, f a k = Ok b) l bs.
Proof.
  induction l as [|a l IH]; intros i bs; simpl.
  - intros [= <-]. constructor.
  - destruct (f a i) as [b|e] eqn:Ef; simpl; [|discriminate].
    destruct (map_from f (S i) l) as [bs'|e] eqn:E; simpl; [|discriminate].
    intros [= <-]. constructor; eauto.
Qed.

Lemma map_from_total {A B} (f : A -> nat -> result B) l :
  Forall (fun a => forall k, exists b, f a k = Ok b) l ->
  forall i, exists bs, map_from f i l = Ok bs.
Proof.
  induction 1 as [|a l Ha _ IH]; intros i; simpl.
  - eauto.
  - destruct (Ha i) as [b ->]. destruct (IH (S i)) as [bs ->].
    simpl. eauto.
Qed.

Lemma map_from_throws {A B} (f : A -> nat -> result B) l :
  Exists (fun a => forall k, f a k = Throw TypeError) l ->
  forall i, map_from f i l = Throw TypeError.
Proof.
  induction 1 as [a l Ha|a l _ IH]; intros i; simpl.
  - rewrite Ha. reflexivity.
  - destruct (f a i) as [b|[]]; simpl; [|reflexivity].
    rewrite IH. reflexivity.
Qed.

Lemma toLocaleString_callable v :
  is_nullish v = false -> exists s, toLocaleString v = Ok s.
Proof. destruct v; simpl; try discriminate; eauto. Qed.

Lemma toLocaleString_nullish v :
  is_nullish v = true -> toLocaleString v = Throw TypeError.
Proof. destruct v; simpl; try discriminate; reflexivity. Qed.

Lemma row_callable n it k :
  is_nullish (price it) = false -> exists r, row n it k = Ok r.
Proof.
  intros Hp. unfold row.
  destruct (toLocaleString_callable _ Hp) as [s ->]. simpl. eauto.
Qed.

Lemma prices_callable_Forall l :
  prices_callable l = true ->
  Forall (fun it => is_nullish (price it) = false) l.
Proof.
  induction l as [|it l IH]; simpl; intros Hl; constructor.
  - apply andb_prop in Hl as [Hl _]. now apply negb_true_iff.
  - apply andb_prop in Hl as [_ Hl]. auto.
Qed.

Lemma prices_numeric_callable l :
  prices_numeric l = true -> prices_callable l = true.
Proof.
  induction l as [|it l IH]; simpl; [reflexivity|].
  intros Hl. apply andb_prop in Hl as [Hn Hl].
  rewrite (IH Hl), andb_true_r.
  destruct (price it); simpl in *; congruence.
Qed.

(** Rendering returns exactly on the arrays whose prices allow a method
    call, and then the tree is the container around the mapped rows. *)
Lemma render_returns its h :
  prices_callable its = true ->
  exists rows,
    array_map (row (length its)) its = Ok rows /\
    VirtualizedItemList (Props its h) =
      Ok (Div None
            (<["backgroundColor" := JStr "white"]>
             (<["border" := JStr "1px solid #e0e0e0"]>
             (<["borderRadius" := JStr "4px"]>
             (<["maxHeight" := default_param h (JNum (number_of_Z 600))]>
             (<["overflow" := JStr "auto"]> ∅)))))
            rows).
Proof.
  intros Hc. unfold VirtualizedItemList, array_map. simpl.
  destruct (map_from_total (row (length its)) its) with (i := 0%nat)
    as [rows Hrows].
  - eapply Forall_impl; [apply prices_callable_Forall, Hc|].
    intros it Hit k. simpl in Hit. now apply row_callable.
  - exists rows. rewrite Hrows. simpl. auto.
Qed.

Lemma render_throws its h :
  prices_callable its = false ->
  VirtualizedItemList (Props its h) = Throw TypeError.
Proof.
  intros Hc. unfold VirtualizedItemList, array_map. simpl.
  rewrite map_from_throws; [reflexivity|].
  generalize (length its). intros n.
  induction its as [|it its IH]; simpl in Hc; [discriminate|].
  destruct (is_nullish (price it)) eqn:Hn; simpl in Hc.
  - left. intros k. unfold row. now rewrite toLocaleString_nullish.
  - right. auto.
Qed.

(** What one row is made of. *)
Lemma row_inv n it k r :
  row n it k = Ok r ->
  exists s,
    toLocaleString (price it) = Ok s /\
    el_key r = jsx_key (id it) /\
    el_style r !! "height" = Some (JStr "70px") /\
    (exists st enter leave cs,
       el_children r =
         [Link (JStr ("/items/" +:+ ToString (id it))) st enter leave cs]) /\
    row_cells r =
      Some ([Expr (name it)], [Expr (category it)],
            [Text "$"; Expr (JStr s)]).
Proof.
  unfold row. destruct (toLocaleString (price it)) as [s|e]; simpl;
    [|discriminate].
  intros [= <-]. exists s. simpl.
  repeat split; eauto 10.
Qed.

Lemma rows_keys n its : forall i rows,
  map_from (row n) i its = Ok rows ->
  el_key <$> rows = (fun it => jsx_key (id it)) <$> its.
Proof.
  intros i rows Hrows. apply map_from_Forall2 in Hrows.
  induction Hrows as [|it r its' rows' [k Hr] _ IH]; [reflexivity|].
  apply row_inv in Hr as (s & _ & Hk & _).
  rewrite !fmap_cons, Hk, IH. reflexivity.
Qed.

(** Two ids with the same key have the same string form. *)
Lemma jsx_key_ToString v w : jsx_key v = jsx_key w -> ToString v = ToString w.
Proof.
  destruct v, w; simpl; try discriminate; try reflexivity;
    intros [= Heq]; exact Heq.
Qed.

Lemma NoDup_fmap_finer {A B C} (f : A -> B) (g : A -> C) (l : list A) :
  (forall x y, g x = g y -> f x = f y) ->
  NoDup (f <$> l) -> NoDup (g <$> l).
Proof.
  intros Hfg. induction l as [|a l IH]; simpl; [constructor|].
  rewrite !NoDup_cons. intros [Hnin Hnd]. split; [|auto].
  intros Hin. apply Hnin.
  apply list_elem_of_fmap in Hin as (b & Hb & Hbl).
  apply list_elem_of_fmap. exists b. split; [now apply Hfg|exact Hbl].
Qed.

End ComponentFacts.

Section ComponentClaims.
Context `{Host}.

(** C1, as amended: the outer container carries a maximum height, not a
    height: for every items array on which rendering returns and every
    supplied height H (600 when the prop is absent), the container's style
    has [maxHeight] exactly H and [overflow] 'auto', and sets no [height]
    property, whatever the number of items. *)
Theorem container_max_height (its : list item) (h : value) :
  prices_callable its = true ->
  exists t,
    VirtualizedItemList (Props its h) = Ok t /\
    el_style t !! "maxHeight" = Some (default_param h (JNum (number_of_Z 600))) /\
    el_style t !! "overflow" = Some (JStr "auto") /\
    el_style t !! "height" = None.
Proof.
  intros Hc. destruct (render_returns its h Hc) as (rows & _ & ->).
  eexists. split; [reflexivity|]. simpl. repeat split; reflexivity.
Qed.


(** C3: fixed row height: the rendered list has one row per item, the row
    of items[i] is at position i and has the style height '70px' whatever
    the item's name, category, price and position; no row has any other
    height. *)
Theorem rows_have_fixed_height (its : list item) (h : value) :
  prices_callable its = true ->
  exists t,
    VirtualizedItemList (Props its h) = Ok t /\
    length (el_children t) = length its /\
    (forall i it, its !! i = Some it ->
       exists r,
         el_children t !! i = Some r /\
         el_style r !! "height" = Some (JStr "70px")) /\
    Forall (fun r => el_style r !! "height" = Some (JStr "70px"))
           (el_children t).
Proof.
  intros Hc. destruct (render_returns its h Hc) as (rows & Hrows & ->).
  eexists. split; [reflexivity|]. simpl.
  split; [exact (map_from_length _ _ _ _ Hrows)|]. split.
  - intros i it Hi.
    destruct (map_from_lookup _ _ _ _ Hrows _ _ Hi) as (r & Hr & Hrow).
    apply row_inv in Hrow as (s & _ & _ & Hh & _). eauto.
  - apply map_from_Forall2 in Hrows.
    induction Hrows as [|it r its' rows' [k Hr] _ IH]; constructor.
    + apply row_inv in Hr as (s & _ & _ & Hh & _). exact Hh.
    + exact IH.
Qed.

(** C4: faithful rendering: there are as many rows as items, and row i
    shows the name of items[i] in its name cell, its category in the
    category cell, and in the price cell a dollar sign followed by the
    price as [toLocaleString] prints it. *)
Theorem rows_show_items (its : list item) (h : value) :
  prices_callable its = true ->
  exists t,
    VirtualizedItemList (Props its h) = Ok t /\
    length (el_children t) = length its /\
    forall i it, its !! i = Some it ->
      exists r s,
        el_children t !! i = Some r /\
        toLocaleString (price it) = Ok s /\
        row_cells r =
          Some ([Expr (name it)], [Expr (category it)],
                [Text "$"; Expr (JStr s)]).
Proof.
  intros Hc. destruct (render_returns its h Hc) as (rows & Hrows & ->).
  eexists. split; [reflexivity|]. simpl. split.
  - exact (map_from_length _ _ _ _ Hrows).
  - intros i it Hi.
    destruct (map_from_lookup _ _ _ _ Hrows _ _ Hi) as (r & Hr & Hrow).
    apply row_inv in Hrow as (s & Hs & _ & _ & _ & Hcells).
    exists r, s. auto.
Qed.

(** C8: rendering returns on every items array whose prices are all
    numbers; and there are arrays holding an element whose price is absent,
    or null, on which rendering throws a TypeError. *)
Theorem render_total_on_numeric_prices :
  (forall (its : list item) (h : value),
     prices_numeric its = true ->
     exists t, VirtualizedItemList (Props its h) = Ok t) /\
  (exists (its : list item) (it : item),
     it ∈ its /\ price it = JUndefined /\
     forall h, VirtualizedItemList (Props its h) = Throw TypeError) /\
  (exists (its : list item) (it : item),
     it ∈ its /\ price it = JNull /\
     forall h, VirtualizedItemList (Props its h) = Throw TypeError).
Proof.
  split; [|split].
  - intros its h Hn.
    destruct (render_returns its h (prices_numeric_callable _ Hn))
      as (rows & _ & ->).
    eauto.
  - exists [Item (JStr "7") (JStr "Chair") (JStr "Furniture") JUndefined],
           (Item (JStr "7") (JStr "Chair") (JStr "Furniture") JUndefined).
    split; [apply list_elem_of_here|]. split; [reflexivity|].
    intros h. now apply render_throws.
  - exists [Item (JStr "7") (JStr "Chair") (JStr "Furniture") JNull],
           (Item (JStr "7") (JStr "Chair") (JStr "Furniture") JNull).
    split; [apply list_elem_of_here|]. split; [reflexivity|].
    intros h. now apply render_throws.
Qed.

(** C9, as amended: the key of each row is the string form of the id of
    its item, as React stores it, and a row whose item has no id has no
    key; so the rows' keys are pairwise distinct whenever the string forms
    of the items' ids are. *)
Theorem row_keys_are_id_strings (its : list item) (h : value) :
  prices_callable its = true ->
  exists t,
    VirtualizedItemList (Props its h) = Ok t /\
    length (el_children t) = length its /\
    (forall i it, its !! i = Some it ->
       exists r,
         el_children t !! i = Some r /\
         (id it = JUndefined -> el_key r = None) /\
         (id it <> JUndefined -> el_key r = Some (ToString (id it)))) /\
    (NoDup ((fun it => ToString (id it)) <$> its) ->
     NoDup (el_key <$> el_children t)).
Proof.
  intros Hc. destruct (render_returns its h Hc) as (rows & Hrows & ->).
  eexists. split; [reflexivity|]. simpl.
  split; [exact (map_from_length _ _ _ _ Hrows)|]. split.
  - intros i it Hi.
    destruct (map_from_lookup _ _ _ _ Hrows _ _ Hi) as (r & Hr & Hrow).
    apply row_inv in Hrow as (s & _ & Hk & _).
    exists r. split; [exact Hr|]. rewrite Hk. split.
    + intros ->. reflexivity.
    + intros Hdef. destruct (id it); try reflexivity. contradiction.
  - intros Hnd. rewrite (rows_keys _ _ _ _ Hrows).
    apply (NoDup_fmap_finer (fun it => ToString (id it))); [|exact Hnd].
    intros x y. apply jsx_key_ToString.
Qed.

(** C10: the only child of row i is a link whose target is the string
    '/items/' followed by the id of items[i] (converted to a string, as [+]
    does). *)
Theorem rows_link_to_items (its : list item) (h : value) :
  prices_callable its = true ->
  exists t,
    VirtualizedItemList (Props its h) = Ok t /\
    forall i it, its !! i = Some it ->
      exists r l,
        el_children t !! i = Some r /\
        el_children r = [l] /\
        link_to l = Some (JStr ("/items/" +:+ ToString (id it))).
Proof.
  intros Hc. destruct (render_returns its h Hc) as (rows & Hrows & ->).
  eexists. split; [reflexivity|]. simpl.
  intros i it Hi.
  destruct (map_from_lookup _ _ _ _ Hrows _ _ Hi) as (r & Hr & Hrow).
  apply row_inv in Hrow as (s & _ & _ & _ & (st & en & le & cs & Hch) & _).
  exists r. eexists. split; [exact Hr|]. split; [exact Hch|]. reflexivity.
Qed.

End ComponentClaims.

(** The claims at the sample catalog, in the en-US integer host. *)

(** C1 as the specification words it does not hold: the container rendered
    for the two-item sample, with the default height, has no [height]
    property at all; 600 is its [maxHeight]. *)
Lemma container_height_is_not_set :
  exists t,
    VirtualizedItemList sample_props = Ok t /\
    el_style t !! "height" <> Some (jnum 600) /\
    el_style t !! "height" = None /\
    el_style t !! "maxHeight" = Some (jnum 600).
Proof.
  destruct (@render_returns int_host sample_items JUndefined eq_refl)
    as (rows & _ & Hrender).
  eexists. split; [exact Hrender|]. simpl.
  split; [|split]; [discriminate|reflexivity|reflexivity].
Qed.

Lemma container_max_height_witness :
  prices_callable sample_items = true /\
  exists t,
    VirtualizedItemList (Props sample_items JUndefined) = Ok t /\
    el_style t !! "maxHeight" = Some (jnum 600) /\
    el_style t !! "overflow" = Some (JStr "auto") /\
    el_style t !! "height" = None.
Proof.
  split; [reflexivity|].
  exact (@container_max_height int_host sample_items JUndefined eq_refl).
Defined.


Lemma rows_have_fixed_height_witness :
  prices_callable sample_items = true /\
  exists t r0 r1,
    VirtualizedItemList (Props sample_items JUndefined) = Ok t /\
    length (el_children t) = 2%nat /\
    el_children t !! 0%nat = Some r0 /\ el_children t !! 1%nat = Some r1 /\
    el_style r0 !! "height" = Some (JStr "70px") /\
    el_style r1 !! "height" = Some (JStr "70px").
Proof.
  split; [reflexivity|].
  destruct (@rows_have_fixed_height int_host sample_items JUndefined eq_refl)
    as (t & Ht & Hlen & Hrows & _).
  destruct (Hrows 0%nat _ eq_refl) as (r0 & Hr0 & Hh0).
  destruct (Hrows 1%nat _ eq_refl) as (r1 & Hr1 & Hh1).
  exists t, r0, r1. split; [exact Ht|]. split; [exact Hlen|].
  split; [exact Hr0|]. split; [exact Hr1|]. split; [exact Hh0|exact Hh1].
Defined.

Lemma rows_show_items_witness :
  prices_callable sample_items = true /\
  exists t r,
    VirtualizedItemList (Props sample_items JUndefined) = Ok t /\
    el_children t !! 1%nat = Some r /\
    row_cells r =
      Some ([Expr (JStr "Standing Desk")], [Expr (JStr "Furniture")],
            [Text "$"; Expr (JStr "1,199")]).
Proof.
  split; [reflexivity|].
  destruct (@rows_show_items int_host sample_items JUndefined eq_refl)
    as (t & Ht & _ & Hrows).
  destruct (Hrows 1%nat _ eq_refl) as (r & s & Hr & Hs & Hcells).
  exists t, r. split; [exact Ht|]. split; [exact Hr|].
  injection Hs as <-. exact Hcells.
Defined.

Lemma render_total_on_numeric_prices_witness :
  prices_numeric sample_items = true /\
  exists t, VirtualizedItemList (Props sample_items JUndefined) = Ok t.
Proof.
  split; [reflexivity|].
  exact (proj1 (@render_total_on_numeric_prices int_host)
           sample_items JUndefined eq_refl).
Defined.

(** C9 as the specification words it does not hold: the ids 1 and '1' are
    distinct, yet the two rows get the same key, the string '1'. *)
Lemma distinct_ids_share_a_key :
  prices_callable mixed_id_items = true /\
  NoDup (id <$> mixed_id_items) /\
  exists t,
    VirtualizedItemList (Props mixed_id_items JUndefined) = Ok t /\
    el_key <$> el_children t = [Some "1"; Some "1"] /\
    ~ NoDup (el_key <$> el_children t).
Proof.
  split; [reflexivity|]. split.
  - simpl. apply NoDup_cons. split.
    + intros Hin. apply list_elem_of_singleton in Hin. discriminate.
    + apply NoDup_singleton.
  - destruct (@render_returns int_host mixed_id_items JUndefined eq_refl)
      as (rows & Hrows & Hrender).
    eexists. split; [exact Hrender|]. simpl.
    rewrite (rows_keys _ _ _ _ Hrows).
    split; [reflexivity|].
    intros Hnd. apply NoDup_cons in Hnd as [Hnin _].
    apply Hnin. apply list_elem_of_here.
Qed.

Lemma row_keys_are_id_strings_witness :
  prices_callable sample_items = true /\
  NoDup ((fun it => ToString (id it)) <$> sample_items) /\
  exists t r,
    VirtualizedItemList (Props sample_items JUndefined) = Ok t /\
    el_children t !! 1%nat = Some r /\ el_key r = Some "2" /\
    NoDup (el_key <$> el_children t).
Proof.
  assert (Hnd : NoDup ((fun it => ToString (id it)) <$> sample_items)).
  { apply NoDup_cons. split.
    - intros Hin. apply list_elem_of_singleton in Hin. discriminate.
    - apply NoDup_singleton. }
  split; [reflexivity|]. split; [exact Hnd|].
  destruct (@row_keys_are_id_strings int_host sample_items JUndefined
              eq_refl) as (t & Ht & _ & Hrows & Hdistinct).
  destruct (Hrows 1%nat _ eq_refl) as (r & Hr & _ & Hk).
  exists t, r. split; [exact Ht|]. split; [exact Hr|].
  split; [apply Hk; discriminate|exact (Hdistinct Hnd)].
Defined.

Lemma rows_link_to_items_witness :
  prices_callable sample_items = true /\
  exists t r l,
    VirtualizedItemList (Props sample_items JUndefined) = Ok t /\
    el_children t !! 1%nat = Some r /\
    el_children r = [l] /\
    link_to l = Some (JStr "/items/2").
Proof.
  split; [reflexivity|].
  destruct (@rows_link_to_items int_host sample_items JUndefined eq_refl)
    as (t & Ht & Hrows).
  destruct (Hrows 1%nat _ eq_refl) as (r & l & Hr & Hl & Hto).
  exists t, r, l. auto.
Defined.

(** On the sample with a null price the component throws. *)
Example priceless_items_throw :
  VirtualizedItemList (Props priceless_items JUndefined) = Throw TypeError.
Proof. reflexivity. Qed.

(** * Query Engine *)

Section QueryEngineFacts.
Import Store QueryEngine.

Lemma starts_with_spec p : forall s,
  starts_with p s = true <-> exists post, s = p +:+ post.
Proof.
  induction p as [|a p IH]; intros s; simpl.
  - split; eauto.
  - destruct s as [|b s]; simpl.
    + split; [discriminate|]. intros [post Hp]. discriminate.
    + destruct (Ascii.eqb a b) eqn:E.
      * apply Ascii.eqb_eq in E as ->. rewrite IH. split.
        -- intros [post ->]. eauto.
        -- intros [post [= ->]]. eauto.
      * apply Ascii.eqb_neq in E. split; [discriminate|].
        intros [post [= <- _]]. contradiction.
Qed.

(** [includes] is the substring relation. *)
Lemma includes_spec needle : forall hay,
  includes needle hay = true <->
  exists pre post, hay = pre +:+ needle +:+ post.
Proof.
  induction hay as [|c hay IH].
  - cbn [includes]. rewrite orb_false_r, starts_with_spec. split.
    + intros [post ->]. exists "", post. reflexivity.
    + intros (pre & post & Hh). destruct pre; [|discriminate].
      simpl in Hh. eauto.
  - cbn [includes]. rewrite orb_true_iff, starts_with_spec, IH. split.
    + intros [[post ->]|(pre & post & ->)].
      * exists "", post. reflexivity.
      * exists (String c pre), post. reflexivity.
    + intros (pre & post & Hh). destruct pre as [|c' pre]; simpl in Hh.
      * left. eauto.
      * injection Hh as <- ->. right. eauto.
Qed.

Lemma matches_spec text it :
  matches text it = true <->
  (exists pre post,
     toLowerCase (name it) = pre +:+ toLowerCase text +:+ post) \/
  (exists pre post,
     toLowerCase (category it) = pre +:+ toLowerCase text +:+ post).
Proof.
  unfold matches. rewrite orb_true_iff, !includes_spec. reflexivity.
Qed.

Lemma slice_length start len (l : list Item) :
  0 <= start -> 0 <= len ->
  Z.of_nat (length (slice start len l)) =
  Z.min len (Z.max 0 (Z.of_nat (length l) - start)).
Proof.
  intros Hs Hl. unfold slice. rewrite length_take, length_drop. lia.
Qed.

(** C5: pagination postcondition: with page and limit at least 1, the
    total is the number of items left by the filter, the slice has
    min(limit, max(0, total - (page-1)*limit)) items, a page beyond the
    available slices gives the empty slice, and the total is the same for
    every page and limit; the engine always returns a result. *)
Theorem query_pagination (collection : list Item) (q : QueryParameters) :
  1 <= page_of q -> 1 <= limit_of q ->
  let r := query collection q in
  r_total r = Z.of_nat (length (apply_search (search q) collection)) /\
  Z.of_nat (length (r_items r)) =
    Z.min (limit_of q) (Z.max 0 (r_total r - (page_of q - 1) * limit_of q)) /\
  (r_total r <= (page_of q - 1) * limit_of q -> r_items r = []) /\
  (forall q', search q' = search q ->
     r_total (query collection q') = r_total r).
Proof.
  intros Hp Hl r. subst r. unfold query. cbn [r_items r_total].
  split; [reflexivity|].
  assert (Hlen : Z.of_nat (length
            (slice ((page_of q - 1) * limit_of q) (limit_of q)
                   (apply_search (search q) collection))) =
          Z.min (limit_of q)
            (Z.max 0 (Z.of_nat (length (apply_search (search q) collection))
                      - (page_of q - 1) * limit_of q))).
  { apply slice_length; nia. }
  split; [exact Hlen|]. split.
  - intros Hout. apply nil_length_inv. lia.
  - intros q' ->. reflexivity.
Qed.

(** C6: filtering: a search text that is non-empty after trimming keeps, in
    the collection's order, exactly the items whose lower-cased name or
    lower-cased category has the lower-cased text as a substring; an absent
    search, and one that trims to the empty text, return the collection
    unchanged; "Tool" matches the name "power tool" and the category
    "Tools". *)
Theorem search_filter :
  (forall (collection : list Item) (text : string),
     trim text <> "" ->
     let kept := apply_search (Some text) collection in
     sublist kept collection /\
     forall it, it ∈ kept <->
       it ∈ collection /\
       ((exists pre post,
           toLowerCase (name it) = pre +:+ toLowerCase text +:+ post) \/
        (exists pre post,
           toLowerCase (category it) = pre +:+ toLowerCase text +:+ post))) /\
  (forall collection, apply_search None collection = collection) /\
  (forall collection text,
     trim text = "" -> apply_search (Some text) collection = collection) /\
  (forall i n c p,
     matches "Tool" {| id := i; name := "power tool"; category := c;
                       price := p |} = true /\
     matches "Tool" {| id := i; name := n; category := "Tools";
                       price := p |} = true).
Proof.
  split; [|split; [|split]].
  - intros collection text Ht kept. subst kept. unfold apply_search.
    destruct (String.eqb_spec (trim text) "") as [E|_]; [contradiction|].
    split.
    + induction collection as [|it l IH]; simpl; [constructor|].
      destruct (matches text it); [now apply sublist_skip|now apply sublist_cons].
    + intros it. rewrite list_elem_of_In, filter_In, <- list_elem_of_In,
        matches_spec. reflexivity.
  - reflexivity.
  - intros collection text Ht. unfold apply_search. rewrite Ht. reflexivity.
  - intros i n c p. split.
    + reflexivity.
    + unfold matches. cbn [name category]. apply orb_true_iff. right.
      reflexivity.
Qed.

End QueryEngineFacts.

Lemma query_pagination_witness :
  1 <= QueryEngine.page_of page_two_of_two /\
  1 <= QueryEngine.limit_of page_two_of_two /\
  QueryEngine.r_total (QueryEngine.query catalog page_two_of_two) = 3 /\
  Z.of_nat (length (QueryEngine.r_items
                      (QueryEngine.query catalog page_two_of_two))) = 1.
Proof.
  assert (Hp : 1 <= QueryEngine.page_of page_two_of_two)
    by (vm_compute; discriminate).
  assert (Hl : 1 <= QueryEngine.limit_of page_two_of_two)
    by (vm_compute; discriminate).
  split; [exact Hp|]. split; [exact Hl|].
  destruct (query_pagination catalog page_two_of_two Hp Hl)
    as (Htotal & Hlen & _).
  split; [exact Htotal|exact Hlen].
Defined.

Lemma search_filter_witness :
  QueryEngine.trim "Tool" <> "" /\
  forall it,
    it ∈ QueryEngine.apply_search (Some "Tool") catalog ->
    it ∈ catalog.
Proof.
  assert (Ht : QueryEngine.trim "Tool" <> "") by (vm_compute; discriminate).
  split; [exact Ht|].
  intros it Hin.
  exact (proj1 (proj1 (proj2 (proj1 search_filter catalog "Tool" Ht) it) Hin)).
Defined.

(** The engine on the sample catalog: the defaults are page 1 and limit 10;
    "TOOL" finds the first two items, by name and by category; page 3 of
    size 2 is beyond the data and gives the empty slice with the total
    kept. *)
Example query_samples :
  QueryEngine.r_items
    (QueryEngine.query catalog
       {| QueryEngine.search := Some "TOOL"; QueryEngine.page := None;
          QueryEngine.limit := None |}) = take 2 catalog /\
  QueryEngine.r_page
    (QueryEngine.query catalog
       {| QueryEngine.search := None; QueryEngine.page := None;
          QueryEngine.limit := None |}) = 1 /\
  QueryEngine.r_limit
    (QueryEngine.query catalog
       {| QueryEngine.search := None; QueryEngine.page := None;
          QueryEngine.limit := None |}) = 10 /\
  QueryEngine.query catalog
    {| QueryEngine.search := Some "  "; QueryEngine.page := Some 3;
       QueryEngine.limit := Some 2 |} =
  {| QueryEngine.r_items := []; QueryEngine.r_total := 3;
     QueryEngine.r_page := 3; QueryEngine.r_limit := 2 |}.
Proof. vm_compute. auto. Qed.

(** * Stats Cache *)

Section StatsCacheFacts.
Import Store StatsCache.

(** A Valid entry is returned as it is: the state, and with it the read
    probe, is unchanged. *)
Lemma getStats_valid v t st :
  t = mtime st -> getStats (Entry v t) st = (v, Entry v t, st).
Proof. intros ->. unfold getStats. rewrite Z.eqb_refl. reflexivity. Qed.

(** Any call leaves a Valid entry behind and reads at most once. *)
Lemma getStats_post c st :
  let '(v, c', st') := getStats c st in
  c' = Entry v (mtime st') /\ mtime st' = mtime st /\
  contents st' = contents st /\
  (reads st' = reads st \/ reads st' = S (reads st)).
Proof.
  unfold getStats. destruct c as [|v t].
  - simpl. auto.
  - destruct (Z.eqb_spec t (mtime st)) as [->|_]; simpl; auto.
Qed.

(** In every reachable state the entry was observed no later than the
    file's timestamp, and an entry observed at the file's timestamp holds
    the aggregate of the file's contents. *)
Lemma cache_coherent s :
  reachable s ->
  forall v t, fst s = Entry v t ->
    t <= mtime (snd s) /\
    (t = mtime (snd s) -> v = compute_stats (contents (snd s))).
Proof.
  induction 1 as [collection t0|s s' Hr IH Hstep]; simpl.
  - discriminate.
  - destruct Hstep as [c st|c st new t' Ht]; simpl in *.
    + unfold getStats. destruct c as [|v0 t0].
      * simpl. intros v t [= <- <-]. split; [lia|reflexivity].
      * destruct (Z.eqb_spec t0 (mtime st)) as [->|Hne]; simpl.
        -- intros v t [= <- <-]. exact (IH _ _ eq_refl).
        -- intros v t [= <- <-]. split; [lia|reflexivity].
    + intros v t ->. destruct (IH _ _ eq_refl) as [Hle _].
      split; lia.
Qed.

(** C7: in every reachable state, a call to getStats with a Valid entry
    whose observed timestamp is the file's current one returns the cached
    value, which is the aggregate of the file's contents, and leaves the
    cache and the storage, read probe included, as they were; and of two
    consecutive calls with no file change between them the second reads
    nothing and returns what the first returned, so storage is read at most
    once. *)
Theorem getStats_fresh_no_read (c : cache) (st : Storage) :
  reachable (c, st) ->
  (forall v t, c = Entry v t -> t = mtime st ->
     getStats c st = (v, c, st) /\ v = compute_stats (contents st)) /\
  (forall v1 c1 st1 v2 c2 st2,
     getStats c st = (v1, c1, st1) ->
     getStats c1 st1 = (v2, c2, st2) ->
     v2 = v1 /\ reads st2 = reads st1 /\ (reads st2 <= S (reads st))%nat).
Proof.
  intros Hreach. split.
  - intros v t -> Ht. split; [now apply getStats_valid|].
    exact (proj2 (cache_coherent _ Hreach v t eq_refl) Ht).
  - intros v1 c1 st1 v2 c2 st2 H1 H2.
    pose proof (getStats_post c st) as Hpost. rewrite H1 in Hpost.
    destruct Hpost as (-> & Hm & _ & Hreads).
    rewrite getStats_valid in H2 by reflexivity.
    injection H2 as <- _ <-. repeat split; lia.
Qed.

End StatsCacheFacts.

Lemma getStats_fresh_no_read_witness :
  StatsCache.reachable (warm_cache, warm_store) /\
  Store.reads warm_store = 1%nat /\
  StatsCache.getStats warm_cache warm_store =
    ({| StatsCache.count := 3; StatsCache.averagePrice := 20 |},
     warm_cache, warm_store).
Proof.
  assert (Hr : StatsCache.reachable (warm_cache, warm_store)).
  { eapply StatsCache.reach_step.
    - apply (StatsCache.reach_init catalog 100).
    - apply (StatsCache.step_getStats StatsCache.NoEntry fresh_store). }
  split; [exact Hr|]. split; [reflexivity|].
  exact (proj1 (proj1 (getStats_fresh_no_read warm_cache warm_store Hr)
                  _ 100 eq_refl eq_refl)).
Defined.

(** The example of the specification: two items priced 10 and 20 average
    15; after a third priced 30 is appended and the timestamp advances, the
    next call reads the file again. *)
Example stats_of_two_then_three :
  StatsCache.compute_stats (take 2 catalog) =
    {| StatsCache.count := 2; StatsCache.averagePrice := 15 |} /\
  fst (fst (StatsCache.getStats warm_cache
              (Store.write catalog 101 warm_store))) =
    {| StatsCache.count := 3; StatsCache.averagePrice := 20 |} /\
  Store.reads (snd (StatsCache.getStats warm_cache
                      (Store.write catalog 101 warm_store))) = 2%nat.
Proof. vm_compute. auto. Qed.

(** * More on the virtualized item list: borders, failure, hover, locality *)

Section ComponentExtras.
Context `{Host}.

(** The rows of a rendering that returns: one per item, row i being the
    callback's result on items[i], i and the array's length. *)
Lemma rendered_rows its h :
  prices_callable its = true ->
  exists t,
    VirtualizedItemList (Props its h) = Ok t /\
    length (el_children t) = length its /\
    forall i it, its !! i = Some it ->
      exists r, el_children t !! i = Some r /\ row (length its) it i = Ok r.
Proof.
  intros Hc. destruct (render_returns its h Hc) as (rows & Hrows & ->).
  eexists. split; [reflexivity|]. simpl. split.
  - exact (map_from_length _ _ _ _ Hrows).
  - intros i it Hi.
    destruct (map_from_lookup _ _ _ _ Hrows _ _ Hi) as (r & Hr & Hrow).
    eauto.
Qed.

Lemma row_border n it k r :
  row n it k = Ok r ->
  el_style r !! "borderBottom" =
    Some (JStr (if Z.of_nat k <? Z.of_nat n - 1
                then "1px solid #e0e0e0" else "none")).
Proof.
  unfold row. destruct (toLocaleString (price it)) as [s|e]; simpl;
    [|discriminate].
  intros [= <-]. simpl. destruct (Z.of_nat k <? Z.of_nat n - 1); reflexivity.
Qed.

Lemma row_handlers n it k r :
  row n it k = Ok r ->
  exists l,
    row_link r = Some l /\
    link_onMouseEnter l =
      Some (SetCurrentTargetStyle "backgroundColor" "#f5f5f5") /\
    link_onMouseLeave l =
      Some (SetCurrentTargetStyle "backgroundColor" "transparent").
Proof.
  unfold row. destruct (toLocaleString (price it)) as [s|e]; simpl;
    [|discriminate].
  intros [= <-]. eexists. repeat split.
Qed.

(** The array's length enters a row through the border only. *)
Lemma row_resize n n' it k r :
  row n it k = Ok r ->
  exists r',
    row n' it k = Ok r' /\
    el_key r' = el_key r /\
    el_children r' = el_children r /\
    ((Z.of_nat k <? Z.of_nat n - 1) = (Z.of_nat k <? Z.of_nat n' - 1) ->
     r' = r).
Proof.
  unfold row. destruct (toLocaleString (price it)) as [s|e]; simpl;
    [|discriminate].
  intros [= <-]. eexists. split; [reflexivity|]. simpl.
  repeat split. intros ->. reflexivity.
Qed.

Lemma prices_callable_false its :
  prices_callable its = false <->
  exists it, it ∈ its /\ (price it = JUndefined \/ price it = JNull).
Proof.
  induction its as [|a its IH]; simpl.
  - split; [discriminate|]. intros (it & Hin & _).
    now apply not_elem_of_nil in Hin.
  - rewrite andb_false_iff, IH, negb_false_iff. split.
    + intros [Hn|(it & Hin & Hp)].
      * exists a. split; [apply list_elem_of_here|].
        destruct (price a); simpl in Hn; try discriminate; auto.
      * exists it. split; [now apply list_elem_of_further|exact Hp].
    + intros (it & Hin & Hp). apply elem_of_cons in Hin as [->|Hin].
      * left. destruct Hp as [-> | ->]; reflexivity.
      * right. eauto.
Qed.

(** X1: separators: in a rendering that returns, every row but the last
    has the bottom border '1px solid #e0e0e0' and the last row has 'none'. *)
Theorem row_separators (its : list item) (h : value) :
  prices_callable its = true ->
  exists t,
    VirtualizedItemList (Props its h) = Ok t /\
    forall i it, its !! i = Some it ->
      exists r,
        el_children t !! i = Some r /\
        ((S i < length its)%nat ->
           el_style r !! "borderBottom" = Some (JStr "1px solid #e0e0e0")) /\
        (S i = length its ->
           el_style r !! "borderBottom" = Some (JStr "none")).
Proof.
  intros Hc. destruct (rendered_rows its h Hc) as (t & Ht & _ & Hrows).
  exists t. split; [exact Ht|]. intros i it Hi.
  destruct (Hrows i it Hi) as (r & Hr & Hrow).
  exists r. split; [exact Hr|]. rewrite (row_border _ _ _ _ Hrow). split.
  - intros Hlt. destruct (Z.ltb_spec (Z.of_nat i) (Z.of_nat (length its) - 1));
      [reflexivity|lia].
  - intros Hlast. destruct (Z.ltb_spec (Z.of_nat i) (Z.of_nat (length its) - 1));
      [lia|reflexivity].
Qed.

(** X2: all or nothing: rendering throws a TypeError exactly when some
    element of the array has an undefined or null price, whatever the
    height and wherever the element is; otherwise it returns a tree. *)
Theorem render_throws_iff (its : list item) (h : value) :
  (VirtualizedItemList (Props its h) = Throw TypeError <->
   exists it, it ∈ its /\ (price it = JUndefined \/ price it = JNull)) /\
  ((exists t, VirtualizedItemList (Props its h) = Ok t) <->
   forall it, it ∈ its -> price it <> JUndefined /\ price it <> JNull).
Proof.
  rewrite <- prices_callable_false.
  destruct (prices_callable its) eqn:Hc.
  - destruct (render_returns its h Hc) as (rows & _ & Hr). rewrite Hr.
    split; split; try discriminate; eauto.
    intros _ it Hin. split; intros Hp.
    + assert (Hf : prices_callable its = false)
        by (apply prices_callable_false; eauto).
      congruence.
    + assert (Hf : prices_callable its = false)
        by (apply prices_callable_false; eauto).
      congruence.
  - rewrite (render_throws its h Hc). split; split; auto.
    + intros [t Ht]. discriminate.
    + intros Hall. apply prices_callable_false in Hc as (it & Hin & Hp).
      destruct (Hall it Hin) as [H1 H2]. destruct Hp; contradiction.
Qed.

(** X3: hover: the link of every row carries two handlers; entering sets
    the target's backgroundColor to '#f5f5f5'; entering and then leaving
    sets it to 'transparent', leaves every other style property of the
    target as it was, and gives the same style as leaving alone. *)
Theorem hover_handlers (its : list item) (h : value) :
  prices_callable its = true ->
  exists t,
    VirtualizedItemList (Props its h) = Ok t /\
    forall i it, its !! i = Some it ->
      exists r l enter leave,
        el_children t !! i = Some r /\ row_link r = Some l /\
        link_onMouseEnter l = Some enter /\
        link_onMouseLeave l = Some leave /\
        forall st : gmap string value,
          run_handler enter st !! "backgroundColor" = Some (JStr "#f5f5f5") /\
          run_handler leave (run_handler enter st) !! "backgroundColor" =
            Some (JStr "transparent") /\
          (forall k, k <> "backgroundColor" ->
             run_handler leave (run_handler enter st) !! k = st !! k) /\
          run_handler leave (run_handler enter st) = run_handler leave st.
Proof.
  intros Hc. destruct (rendered_rows its h Hc) as (t & Ht & _ & Hrows).
  exists t. split; [exact Ht|]. intros i it Hi.
  destruct (Hrows i it Hi) as (r & Hr & Hrow).
  destruct (row_handlers _ _ _ _ Hrow) as (l & Hl & He & Hle).
  exists r, l. do 2 eexists.
  split; [exact Hr|]. split; [exact Hl|]. split; [exact He|].
  split; [exact Hle|]. intros st. simpl. split; [|split; [|split]].
  - apply lookup_insert_eq.
  - apply lookup_insert_eq.
  - intros k Hk. rewrite !lookup_insert_ne by congruence. reflexivity.
  - apply insert_insert_eq.
Qed.

(** X4: locality: a row depends on its item, its index and the array's
    length only: two arrays of the same length holding the same item at
    index i render the same row i, whatever the other items and the two
    heights. *)
Theorem row_locality (its its' : list item) (h h' : value) (i : nat)
    (it : item) :
  prices_callable its = true -> prices_callable its' = true ->
  length its = length its' ->
  its !! i = Some it -> its' !! i = Some it ->
  exists t t' r,
    VirtualizedItemList (Props its h) = Ok t /\
    VirtualizedItemList (Props its' h') = Ok t' /\
    el_children t !! i = Some r /\ el_children t' !! i = Some r.
Proof.
  intros Hc Hc' Hlen Hi Hi'.
  destruct (rendered_rows its h Hc) as (t & Ht & _ & Hrows).
  destruct (rendered_rows its' h' Hc') as (t' & Ht' & _ & Hrows').
  destruct (Hrows i it Hi) as (r & Hr & Hrow).
  destruct (Hrows' i it Hi') as (r' & Hr' & Hrow').
  rewrite <- Hlen, Hrow in Hrow'. injection Hrow' as <-.
  exists t, t', r. auto.
Qed.

(** X5: appending an item: the longer array renders one more row; every
    earlier row keeps its key and its content; the rows before the former
    last row are unchanged altogether (the former last row gains its
    border). *)
Theorem append_item (its : list item) (x : item) (h : value) :
  prices_callable (its ++ [x]) = true ->
  exists t t',
    VirtualizedItemList (Props its h) = Ok t /\
    VirtualizedItemList (Props (its ++ [x]) h) = Ok t' /\
    length (el_children t') = S (length (el_children t)) /\
    forall i it, its !! i = Some it ->
      exists r r',
        el_children t !! i = Some r /\ el_children t' !! i = Some r' /\
        el_key r' = el_key r /\ el_children r' = el_children r /\
        ((S i < length its)%nat -> r' = r).
Proof.
  intros Hc'.
  assert (Hc : prices_callable its = true).
  { unfold prices_callable in *. rewrite forallb_app in Hc'.
    now apply andb_prop in Hc' as [Hc' _]. }
  destruct (rendered_rows its h Hc) as (t & Ht & Hlen & Hrows).
  destruct (rendered_rows (its ++ [x]) h Hc') as (t' & Ht' & Hlen' & Hrows').
  exists t, t'. split; [exact Ht|]. split; [exact Ht'|]. split.
  - rewrite Hlen, Hlen', length_app. simpl. lia.
  - intros i it Hi.
    destruct (Hrows i it Hi) as (r & Hr & Hrow).
    destruct (Hrows' i it) as (r' & Hr' & Hrow').
    { rewrite lookup_app_l; [exact Hi|]. now apply lookup_lt_Some in Hi. }
    destruct (row_resize _ (length (its ++ [x])) _ _ _ Hrow)
      as (r'' & Hrow'' & Hk & Hch & Hsame).
    rewrite Hrow' in Hrow''. injection Hrow'' as <-.
    exists r, r'. repeat split; auto.
    intros Hlt. apply Hsame. rewrite length_app. simpl.
    destruct (Z.ltb_spec (Z.of_nat i) (Z.of_nat (length its) - 1));
      destruct (Z.ltb_spec (Z.of_nat i)
                  (Z.of_nat (length its + 1) - 1)); try reflexivity; lia.
Qed.

(** X6: a price that is a string does not throw and is shown after the
    dollar sign exactly as given, with no number formatting. *)
Theorem string_price_verbatim (its : list item) (h : value) (i : nat)
    (it : item) (s : string) :
  prices_callable its = true ->
  its !! i = Some it -> price it = JStr s ->
  exists t r name_cell category_cell,
    VirtualizedItemList (Props its h) = Ok t /\
    el_children t !! i = Some r /\
    row_cells r =
      Some (name_cell, category_cell, [Text "$"; Expr (JStr s)]).
Proof.
  intros Hc Hi Hp.
  destruct (rendered_rows its h Hc) as (t & Ht & _ & Hrows).
  destruct (Hrows i it Hi) as (r & Hr & Hrow).
  apply row_inv in Hrow as (s' & Hs & _ & _ & _ & Hcells).
  rewrite Hp in Hs. injection Hs as <-.
  exists t, r. do 2 eexists. eauto.
Qed.

(** X7: routes: the links of two rows have the same target exactly when
    the two ids have the same string form; so ids that are distinct
    strings never share a route. *)
Theorem same_route_iff_same_id_string (its : list item) (h : value) :
  prices_callable its = true ->
  exists t,
    VirtualizedItemList (Props its h) = Ok t /\
    forall i j it it', its !! i = Some it -> its !! j = Some it' ->
      exists r r' l l' to to',
        el_children t !! i = Some r /\ el_children t !! j = Some r' /\
        row_link r = Some l /\ row_link r' = Some l' /\
        link_to l = Some to /\ link_to l' = Some to' /\
        (to = to' <-> ToString (id it) = ToString (id it')) /\
        (forall a b, id it = JStr a -> id it' = JStr b -> a <> b ->
           to <> to').
Proof.
  intros Hc. destruct (rendered_rows its h Hc) as (t & Ht & _ & Hrows).
  exists t. split; [exact Ht|]. intros i j it it' Hi Hj.
  destruct (Hrows i it Hi) as (r & Hr & Hrow).
  destruct (Hrows j it' Hj) as (r' & Hr' & Hrow').
  apply row_inv in Hrow as (s & _ & _ & _ & (st & en & le & cs & Hch) & _).
  apply row_inv in Hrow'
    as (s' & _ & _ & _ & (st' & en' & le' & cs' & Hch') & _).
  exists r, r'. do 4 eexists.
  split; [exact Hr|]. split; [exact Hr'|].
  unfold row_link. rewrite Hch, Hch'. simpl.
  split; [reflexivity|]. split; [reflexivity|].
  split; [reflexivity|]. split; [reflexivity|].
  assert (Hiff : JStr ("/items/" +:+ ToString (id it)) =
                 JStr ("/items/" +:+ ToString (id it')) <->
                 ToString (id it) = ToString (id it')).
  { split.
    - intros [= Heq]. exact Heq.
    - intros ->. reflexivity. }
  split; [exact Hiff|].
  intros a b Ha Hb Hne Heq. apply Hiff in Heq.
  rewrite Ha, Hb in Heq. simpl in Heq. contradiction.
Qed.

End ComponentExtras.

(** The same properties at the sample catalog. *)

Lemma row_separators_witness :
  prices_callable sample_items = true /\
  exists t r0 r1,
    VirtualizedItemList (Props sample_items JUndefined) = Ok t /\
    el_children t !! 0%nat = Some r0 /\ el_children t !! 1%nat = Some r1 /\
    el_style r0 !! "borderBottom" = Some (JStr "1px solid #e0e0e0") /\
    el_style r1 !! "borderBottom" = Some (JStr "none").
Proof.
  split; [reflexivity|].
  destruct (@row_separators int_host sample_items JUndefined eq_refl)
    as (t & Ht & Hrows).
  destruct (Hrows 0%nat _ eq_refl) as (r0 & Hr0 & Hb0 & _).
  destruct (Hrows 1%nat _ eq_refl) as (r1 & Hr1 & _ & Hb1).
  exists t, r0, r1. split; [exact Ht|]. split; [exact Hr0|].
  split; [exact Hr1|]. split.
  - apply Hb0. simpl. lia.
  - apply Hb1. reflexivity.
Defined.

Lemma hover_handlers_witness :
  prices_callable sample_items = true /\
  exists (t r l : @element int_host) enter leave,
    VirtualizedItemList (Props sample_items JUndefined) = Ok t /\
    el_children t !! 0%nat = Some r /\ row_link r = Some l /\
    link_onMouseEnter l = Some enter /\ link_onMouseLeave l = Some leave /\
    run_handler leave (run_handler enter (@link_style int_host))
      !! "backgroundColor" = Some (JStr "transparent") /\
    run_handler leave (run_handler enter (@link_style int_host))
      !! "display" = Some (JStr "flex").
Proof.
  split; [reflexivity|].
  destruct (@hover_handlers int_host sample_items JUndefined eq_refl)
    as (t & Ht & Hrows).
  destruct (Hrows 0%nat _ eq_refl)
    as (r & l & enter & leave & Hr & Hl & He & Hle & Hrun).
  destruct (Hrun link_style) as (_ & Hbg & Hother & _).
  exists t, r, l, enter, leave.
  split; [exact Ht|]. split; [exact Hr|]. split; [exact Hl|].
  split; [exact He|]. split; [exact Hle|]. split; [exact Hbg|].
  rewrite Hother by discriminate. reflexivity.
Defined.

Lemma row_locality_witness :
  prices_callable sample_items = true /\
  prices_callable (take 1 sample_items ++ quoted_price_items) = true /\
  exists t t' r,
    VirtualizedItemList (Props sample_items JUndefined) = Ok t /\
    VirtualizedItemList
      (Props (take 1 sample_items ++ quoted_price_items) JNull) = Ok t' /\
    el_children t !! 0%nat = Some r /\ el_children t' !! 0%nat = Some r.
Proof.
  split; [reflexivity|]. split; [reflexivity|].
  exact (@row_locality int_host sample_items
           (take 1 sample_items ++ quoted_price_items) JUndefined JNull
           0%nat _ eq_refl eq_refl eq_refl eq_refl eq_refl).
Defined.

Lemma append_item_witness :
  prices_callable (sample_items ++ quoted_price_items) = true /\
  exists t t',
    VirtualizedItemList (Props sample_items JUndefined) = Ok t /\
    VirtualizedItemList
      (Props (sample_items ++ quoted_price_items) JUndefined) = Ok t' /\
    length (el_children t') = S (length (el_children t)) /\
    el_children t' !! 0%nat = el_children t !! 0%nat.
Proof.
  split; [reflexivity|].
  destruct (@append_item int_host sample_items
              (Item (jnum 4) (JStr "Gift Card") (JStr "Vouchers")
                 (JStr "25.00")) JUndefined eq_refl)
    as (t & t' & Ht & Ht' & Hlen & Hrows).
  destruct (Hrows 0%nat _ eq_refl) as (r & r' & Hr & Hr' & _ & _ & Hsame).
  exists t, t'. split; [exact Ht|]. split; [exact Ht'|].
  split; [exact Hlen|].
  rewrite Hr, Hr'. f_equal. apply Hsame. simpl. lia.
Defined.

Lemma string_price_verbatim_witness :
  prices_callable quoted_price_items = true /\
  exists t r name_cell category_cell,
    VirtualizedItemList (Props quoted_price_items JUndefined) = Ok t /\
    el_children t !! 0%nat = Some r /\
    row_cells r =
      Some (name_cell, category_cell, [Text "$"; Expr (JStr "25.00")]).
Proof.
  split; [reflexivity|].
  exact (@string_price_verbatim int_host quoted_price_items JUndefined
           0%nat _ "25.00" eq_refl eq_refl eq_refl).
Defined.

Lemma same_route_iff_same_id_string_witness :
  prices_callable sample_items = true /\
  exists t r r' l l' to to',
    VirtualizedItemList (Props sample_items JUndefined) = Ok t /\
    el_children t !! 0%nat = Some r /\ el_children t !! 1%nat = Some r' /\
    row_link r = Some l /\ row_link r' = Some l' /\
    link_to l = Some to /\ link_to l' = Some to' /\ to <> to'.
Proof.
  split; [reflexivity|].
  destruct (@same_route_iff_same_id_string int_host sample_items JUndefined
              eq_refl) as (t & Ht & Hrows).
  destruct (Hrows 0%nat 1%nat _ _ eq_refl eq_refl)
    as (r & r' & l & l' & to & to' & Hr & Hr' & Hl & Hl' & Hto & Hto'
        & Hiff & _).
  exists t, r, r', l, l', to, to'. repeat (split; [assumption|]).
  intros Heq. apply Hiff in Heq. vm_compute in Heq. discriminate.
Defined.
